(** * The orchestration [Stack] resource of openstacksdk

    A shallow embedding of [openstack/orchestration/v1/stack.py].  The
    class is thin glue over the generic [resource.Resource] base class, the
    [utils] helpers and a [Session]; those collaborators are not part of the
    file and are modelled here from the specification (module [Resource],
    [urljoin]) or, where the specification leaves them open, taken as
    parameters (class [BaseOpen]). *)

From Stdlib Require Import Ascii.
From stdpp Require Import base option list strings pretty gmap.

(** ** Decoded documents and Python values *)

#[local] Set Warnings "-register-all".

(** A decoded JSON document, which is also the type of an attribute value. *)
Inductive value : Type :=
| VNone
| VBool (b : bool)
| VInt (z : Z)
| VStr (s : string)
| VList (l : list value)
| VDict (d : list (string * value)).

(** Python's [repr] on such a value.  Text inside a container is quoted
    with single quotes; escapes inside quoted text are not expanded. *)
Fixpoint py_repr (v : value) : string :=
  match v with
  | VNone => "None"
  | VBool true => "True"
  | VBool false => "False"
  | VInt z => pretty z
  | VStr s => "'" +:+ s +:+ "'"
  | VList l => "[" +:+ String.concat ", " (map py_repr l) +:+ "]"
  | VDict d =>
      "{" +:+ String.concat ", "
                (map (fun kv => match kv with
                                | (k, x) => "'" +:+ k +:+ "': " +:+ py_repr x
                                end) d) +:+ "}"
  end.

(** Python's [str], as used by [%s] formatting: text is rendered as it is,
    [None] as ["None"]. *)
Definition py_str (v : value) : string :=
  match v with
  | VStr s => s
  | _ => py_repr v
  end.

(** [x in [s1, s2, ...]] for a list of text constants: only a text value
    can compare equal to one of them. *)
Definition py_in (v : value) (l : list string) : bool :=
  match v with
  | VStr s => existsb (String.eqb s) l
  | _ => false
  end.

(** Lookup of a key in a decoded mapping; anything else has no keys. *)
Fixpoint assoc (k : string) (d : list (string * value)) : option value :=
  match d with
  | [] => None
  | (k', v) :: d' => if String.eqb k k' then Some v else assoc k d'
  end.

Definition doc_get (k : string) (doc : value) : option value :=
  match doc with
  | VDict d => assoc k d
  | _ => None
  end.

(** ** Errors and results *)

(** Modelled from the spec: the capability flags of a schema; in the source
    they are the class attributes [allow_create] ... [allow_delete]. *)
Inductive capability := Create | List | Fetch | Commit | Delete.

#[global] Instance capability_eq_dec : EqDecision capability.
Proof. solve_decision. Defined.

(** Modelled from the spec: what the session collaborator can fail with:
    a network failure, a status outside 2xx with its raw body, or a body
    that does not decode. *)
Inductive transport_failure :=
| NetworkFailure
| HttpStatus (code : Z) (raw : string)
| DecodeFailure.

(** Modelled from the spec: the error taxonomy of the base class
    ([openstack.exceptions] is not part of the file).  [ResourceNotFound]
    is the source's name of the logical not-found error;
    [MethodNotSupported] is what a missing capability flag gives. *)
Inductive error :=
| SchemaError
| MissingURIParameter (placeholder : string)
| PreconditionError
| TranslationError (attribute : string) (offending : value)
| TransportError (failure : transport_failure)
| ResourceNotFound (message : string)
| MethodNotSupported (c : capability).

Inductive result (A : Type) :=
| Ok (a : A)
| Raise (e : error).
Arguments Ok {A} a.
Arguments Raise {A} e.

Definition result_map {A B} (f : A -> B) (r : result A) : result B :=
  match r with
  | Ok a => Ok (f a)
  | Raise e => Raise e
  end.

(** ** Schema *)

(** Modelled from the spec: where a field lives on the wire, and the
    coercions a field may declare ([type=bool], [type=list], [type=dict]
    in the source). *)
Inductive location := Body | URI | Header.
Inductive TypeTag := TBool | TList | TDict.

#[global] Instance location_eq_dec : EqDecision location.
Proof. solve_decision. Defined.

(** Modelled from the spec: the description of one attribute, what
    [resource.Body] and [resource.URI] build. *)
Record FieldSpec := {
  wireName : string;
  loc : location;
  coerce : option TypeTag;
  required : bool
}.

(** Modelled from the spec: the class-level description of an entity
    type; [nameAttribute] is the source's [name_attribute]. *)
Record ResourceSchema := {
  nameAttribute : string;
  entityKey : option string;
  collectionKey : option string;
  basePath : string;
  capabilities : list capability;
  fields : list (string * FieldSpec)
}.

(** ** Entities, requests and the session collaborator *)

Inductive Method := GET | POST | PUT | PATCH | DELETE.

(** Modelled from the spec: what reaches the session collaborator: the
    verb, the URL and the keyword arguments [json], [headers] and
    [microversion] of the call. *)
Record Call := {
  verb : Method;
  target : string;
  json : option value;
  hdrs : option (list (string * value));
  mv : option string
}.

(** Modelled from the spec: the response of the session: status, decoded
    body and headers. *)
Record Response := {
  status_code : Z;
  document : option value;
  response_headers : list (string * value)
}.

(** Modelled from the spec: the session collaborator.  It answers a call
    from the calls it has seen so far; [sent] is the log of the calls that
    reached it. *)
Record Session := {
  transport : list Call -> Call -> result Response;
  sent : list Call
}.

(** Modelled from the spec: the state of an entity: the attribute values
    by attribute name, the attributes changed since the last sync, the
    identity ([self.id]) and the microversion last used. *)
Record ResourceEntity := {
  values : gmap string value;
  dirty : gset string;
  ident : option string;
  microversion : option string
}.

(** [self.<attribute>]: an unset attribute reads as [None]. *)
Definition attr (a : string) (self : ResourceEntity) : value :=
  default VNone (values self !! a).

(** [self.id] as a Python value. *)
Definition id_value (self : ResourceEntity) : value :=
  from_option VStr VNone (ident self).

(** Modelled from the spec: the truth value of an entity, [if stk].  The
    post-fetch rule of the specification looks at the status alone: an
    entity that was fetched counts as true. *)
Definition truthy (stk : ResourceEntity) : bool := true.

(** ** Operations: state passing over the entity and the session

    A method runs on the entity it is called on and on the session; it
    returns a value or raises, and leaves both possibly changed (what was
    changed before an error is raised stays changed). *)
Definition Op (A : Type) : Type :=
  ResourceEntity -> Session -> result A * ResourceEntity * Session.

Definition ret {A} (a : A) : Op A := fun self session => (Ok a, self, session).
Definition raise {A} (e : error) : Op A := fun self session => (Raise e, self, session).
Definition bind {A B} (m : Op A) (k : A -> Op B) : Op B :=
  fun self session =>
    match m self session with
    | (Ok a, self', session') => k a self' session'
    | (Raise e, self', session') => (Raise e, self', session')
    end.

#[global] Instance Op_ret : MRet Op := @ret.
#[global] Instance Op_bind : MBind Op := fun A B k m => bind m k.

Definition lift {A} (r : result A) : Op A :=
  fun self session => (r, self, session).
Definition get_self : Op ResourceEntity :=
  fun self session => (Ok self, self, session).
Definition modify_self (f : ResourceEntity -> ResourceEntity) : Op unit :=
  fun self session => (Ok tt, f self, session).
Definition get_session : Op Session :=
  fun self session => (Ok session, self, session).

(** One call on the session: it is logged, then answered or failed. *)
Definition send (c : Call) : Op Response :=
  fun self session =>
    (transport session (sent session) c, self,
     {| transport := transport session; sent := sent session ++ [c] |}).

(** [resp.json()] *)
Definition response_json (resp : Response) : Op value :=
  match document resp with
  | Some doc => ret doc
  | None => raise (TransportError DecodeFailure)
  end.

(** The outcome, the entity and the session after running an operation. *)
Definition outcome {A} (r : result A * ResourceEntity * Session) : result A := r.1.1.
Definition entity_after {A} (r : result A * ResourceEntity * Session) : ResourceEntity := r.1.2.
Definition session_after {A} (r : result A * ResourceEntity * Session) : Session := r.2.

(** The calls an operation issued on the session. *)
Definition calls {A} (m : Op A) (self : ResourceEntity) (session : Session) : list Call :=
  drop (length (sent session)) (sent (session_after (m self session))).

(** ** What the specification leaves open in the base class

    The casts of the translator, the verb of a commit and the negotiation
    of the microversion belong to the base class and the session layer and
    are not fixed by the specification; the development is parametric in
    them. *)
Class BaseOpen := {
  coerce_out : TypeTag -> value -> value;
  cast : TypeTag -> value -> option value;
  commit_method : Method;
  _get_microversion_for : ResourceEntity -> Session -> string -> option string
}.

(** Modelled from the spec: [utils.urljoin], which is not part of the file.
    The specification writes the paths it builds as [<a>/<b>/<c>]: the
    segments, rendered as text, joined by a slash. *)
Definition urljoin (segments : list value) : string :=
  String.concat "/" (py_str <$> segments).

(** ** The generic resource base class *)

Module Resource.

(** Modelled from the spec: the request the builder hands back, read in
    the source as [request.url], [request.body] and [request.headers]. *)
Record _Request := {
  url : string;
  body : value;
  headers : list (string * value)
}.

(** Modelled from the spec: the wire document of the translator: the body
    map and the maps of the URI and header fields. *)
Record WireDocument := {
  wire_body : value;
  wire_uri : list (string * value);
  wire_headers : list (string * value)
}.

Section Base.
Context `{BaseOpen}.
Variable schema : ResourceSchema.

(** Modelled from the spec: the coercion of the translator.  A value that
    already has the declared type is kept; otherwise the cast is tried. *)
Definition matches (t : TypeTag) (v : value) : bool :=
  match t, v with
  | TBool, VBool _ | TList, VList _ | TDict, VDict _ => true
  | _, _ => false
  end.

Definition coerced_out (f : FieldSpec) (v : value) : value :=
  match coerce f with
  | Some t => coerce_out t v
  | None => v
  end.

Definition coerced_in (f : FieldSpec) (w : value) : option value :=
  match coerce f with
  | Some t => if matches t w then Some w else cast t w
  | None => Some w
  end.

(** Modelled from the spec: the bound attributes of one location, under
    their wire names, in the order of the schema. *)
Definition emit (l : location) (vals : gmap string value) : list (string * value) :=
  omap (fun af : string * FieldSpec =>
          if decide (loc af.2 = l)
          then (fun v => (wireName af.2, coerced_out af.2 v)) <$> vals !! af.1
          else None)
       (fields schema).

(** Modelled from the spec: the translator's [toWire].  Body fields go
    to the body map, URI and header fields to their own maps; the body
    map is wrapped under the entity key when the schema has one and
    the operation asks for the envelope. *)
Definition toWire (vals : gmap string value) (envelope : bool) : WireDocument :=
  {| wire_body :=
       match entityKey schema, envelope with
       | Some k, true => VDict [(k, VDict (emit Body vals))]
       | _, _ => VDict (emit Body vals)
       end;
     wire_uri := emit URI vals;
     wire_headers := emit Header vals |}.

(** Modelled from the spec: a document that carries the entity key is
    unwrapped first. *)
Definition unwrap (doc : value) : value :=
  match entityKey schema with
  | Some k => default doc (doc_get k doc)
  | None => doc
  end.

Fixpoint read_fields (doc : value) (fs : list (string * FieldSpec))
  : result (gmap string value) :=
  match fs with
  | [] => Ok ∅
  | af :: fs' =>
      if decide (loc af.2 = Body) then
        match doc_get (wireName af.2) doc with
        | Some w =>
            match coerced_in af.2 w with
            | Some v => result_map (insert af.1 v) (read_fields doc fs')
            | None => Raise (TranslationError af.1 w)
            end
        | None => read_fields doc fs'
        end
      else read_fields doc fs'
  end.

(** Modelled from the spec: the translator's [fromWire].  The document
    is unwrapped when it carries the entity key; each known wire name
    of a body field is mapped back to its attribute with the declared
    coercion, a failed cast is a [TranslationError], unknown keys are
    ignored. *)
Definition fromWire (doc : value) : result (gmap string value) :=
  read_fields (unwrap doc) (fields schema).

(** Modelled from the spec: the identity carried by a document, under the
    identity field ["id"]. *)
Definition doc_ident (doc : value) : option string :=
  match doc_get "id" (unwrap doc) with
  | Some (VStr i) => Some i
  | _ => None
  end.

(** Modelled from the spec: a sync stores the translated attributes over
    the values, binds the identity that came back and clears the dirty
    set. *)
Definition store (attrs : gmap string value) (i : option string)
           (self : ResourceEntity) : ResourceEntity :=
  {| values := attrs ∪ values self;
     dirty := ∅;
     ident := match i with Some _ => i | None => ident self end;
     microversion := microversion self |}.

(** Modelled from the spec: [Resource._translate_response].  A
    successful response is a sync with the backend: the dirty set is
    cleared and [fromWire] is applied to any body that came back; with
    no body the values stay as they were set locally. *)
Definition _translate_response (response : Response) (has_body : bool) : Op unit :=
  match (if has_body then document response else None) with
  | Some doc =>
      attrs ← lift (fromWire doc);
      modify_self (store attrs (doc_ident doc))
  | None => modify_self (store ∅ None)
  end.

(** Modelled from the spec: an operation requires its capability. *)
Definition require (c : capability) : Op unit :=
  if bool_decide (c ∈ capabilities schema) then ret tt
  else raise (MethodNotSupported c).

(** Modelled from the spec: the value a placeholder stands for, an
    attribute of a URI field, matched by attribute name. *)
Definition uri_lookup (self : ResourceEntity) (n : string) : option value :=
  if existsb (fun af : string * FieldSpec =>
                String.eqb af.1 n && bool_decide (loc af.2 = URI))
             (fields schema)
  then values self !! n else None.

(** Modelled from the spec: URI templating.  Every [{placeholder}] of the
    template is replaced, an unbound one is a [MissingURIParameter];
    [pending] is the placeholder being read. *)
Fixpoint fill (bound : string -> option value) (template : string)
         (pending : option string) : result string :=
  match template, pending with
  | EmptyString, None => Ok ""
  | EmptyString, Some n => Ok ("{" +:+ n)
  | String "{"%char rest, None => fill bound rest (Some "")
  | String "}"%char rest, Some n =>
      match bound n with
      | Some v => result_map (String.append (py_str v)) (fill bound rest None)
      | None => Raise (MissingURIParameter n)
      end
  | String c rest, None => result_map (String c) (fill bound rest None)
  | String c rest, Some n => fill bound rest (Some (n +:+ String c ""))
  end.

(** Modelled from the spec: the request builder.  An operation that
    requires the identity fails with [PreconditionError] when none is
    bound; the path is the base path, or the alternate one of the
    operation, with its placeholders filled and the identity segment
    joined on; the body is [toWire] of the given attributes. *)
Definition build (vals : gmap string value) (requires_id prepend_key : bool)
           (base_path : option string) : Op _Request :=
  self ← get_self;
  let wire := toWire vals prepend_key in
  if requires_id then
    match ident self with
    | None => raise PreconditionError
    | Some i =>
        uri ← lift (fill (uri_lookup self) (default (basePath schema) base_path) None);
        ret {| url := urljoin [VStr uri; VStr i];
               body := wire_body wire; headers := wire_headers wire |}
    end
  else
    uri ← lift (fill (uri_lookup self) (default (basePath schema) base_path) None);
    ret {| url := uri; body := wire_body wire; headers := wire_headers wire |}.

(** Modelled from the spec: the attributes changed since the last sync. *)
Definition dirty_values (self : ResourceEntity) : gmap string value :=
  filter (fun kv => kv.1 ∈ dirty self) (values self).

(** Modelled from the spec: [Resource._prepare_request], the builder of
    a commit: the body holds the dirty attributes only. *)
Definition _prepare_request (requires_id prepend_key : bool)
           (base_path : option string) : Op _Request :=
  self ← get_self;
  build (dirty_values self) requires_id prepend_key base_path.

(** Modelled from the spec: [Resource._get_id] applied to the entity
    itself, its identity. *)
Definition _get_id (self : ResourceEntity) : value := id_value self.

(** Modelled from the spec: [Resource.create]: POST to the base path
    with the attributes as the body, then the response is translated. *)
Definition create (prepend_key : bool) (base_path : option string)
  : Op ResourceEntity :=
  require Create;;
  self ← get_self;
  request ← build (values self) false prepend_key base_path;
  response ← send {| verb := POST; target := url request;
                     json := Some (body request);
                     hdrs := Some (headers request); mv := None |};
  _translate_response response true;;
  get_self.

(** Modelled from the spec: [Resource.fetch]: GET on the identity path,
    no body, then the response is translated. *)
Definition fetch (requires_id : bool) (base_path error_message : option string)
  : Op ResourceEntity :=
  require Fetch;;
  request ← build ∅ requires_id false base_path;
  response ← send {| verb := GET; target := url request; json := None;
                     hdrs := Some (headers request); mv := None |};
  _translate_response response true;;
  get_self.

(** Modelled from the spec: [Resource.commit]: the dirty attributes go
    to the identity path; [has_body] says whether the response carries
    a body to translate. *)
Definition commit (prepend_key has_body : bool) (base_path : option string)
  : Op ResourceEntity :=
  require Commit;;
  request ← _prepare_request true prepend_key base_path;
  response ← send {| verb := commit_method; target := url request;
                     json := Some (body request);
                     hdrs := Some (headers request); mv := None |};
  _translate_response response has_body;;
  get_self.

(** Modelled from the spec: [Resource.delete]: DELETE on the identity
    path, no body, the response is not translated. *)
Definition delete : Op ResourceEntity :=
  require Delete;;
  request ← build ∅ true false None;
  response ← send {| verb := DELETE; target := url request; json := None;
                     hdrs := Some (headers request); mv := None |};
  get_self.

End Base.
End Resource.

(** ** The [Stack] class *)

Module Stack.

Definition name_attribute : string := "stack_name".
Definition resource_key : string := "stack".
Definition resources_key : string := "stacks".
Definition base_path : string := "/stacks".

(** capabilities *)
Definition allow_create : bool := true.
Definition allow_list : bool := true.
Definition allow_fetch : bool := true.
Definition allow_commit : bool := true.
Definition allow_delete : bool := true.

(** [resource.Body(wire)], [resource.Body(wire, type=t)] and
    [resource.URI(wire)] *)
Definition Body_ (wire : string) : FieldSpec :=
  {| wireName := wire; loc := Body; coerce := None; required := false |}.
Definition Body_typed (wire : string) (t : TypeTag) : FieldSpec :=
  {| wireName := wire; loc := Body; coerce := Some t; required := false |}.
Definition URI_ (wire : string) : FieldSpec :=
  {| wireName := wire; loc := URI; coerce := None; required := false |}.

(** Properties *)
Definition properties : list (string * FieldSpec) :=
  [ ("added", Body_ "added");
    ("capabilities", Body_ "capabilities");
    ("created_at", Body_ "creation_time");
    ("description", Body_ "description");
    ("deleted", Body_typed "deleted" TList);
    ("is_rollback_disabled", Body_typed "disable_rollback" TBool);
    ("links", Body_ "links");
    ("name", Body_ "stack_name");
    ("stack_name", URI_ "stack_name");
    ("notification_topics", Body_ "notification_topics");
    ("outputs", Body_ "outputs");
    ("owner_id", Body_ "stack_owner");
    ("parameters", Body_typed "parameters" TDict);
    ("parent_id", Body_ "parent");
    ("replaced", Body_ "replaced");
    ("status", Body_ "stack_status");
    ("status_reason", Body_ "stack_status_reason");
    ("tags", Body_ "tags");
    ("template", Body_typed "template" TDict);
    ("template_description", Body_ "template_description");
    ("template_url", Body_ "template_url");
    ("timeout_mins", Body_ "timeout_mins");
    ("unchanged", Body_ "unchanged");
    ("updated", Body_ "updated");
    ("updated_at", Body_ "updated_time");
    ("user_project_id", Body_ "stack_user_project_id") ].

Definition allowed (flag : bool) (c : capability) : list capability :=
  if flag then [c] else [].

(** The class attributes, as the schema the base class works from. *)
Definition schema : ResourceSchema :=
  {| nameAttribute := name_attribute;
     entityKey := Some resource_key;
     collectionKey := Some resources_key;
     basePath := base_path;
     capabilities :=
       allowed allow_create Create ++ allowed allow_list List ++
       allowed allow_fetch Fetch ++ allowed allow_commit Commit ++
       allowed allow_delete Delete;
     fields := properties |}.

Definition set_microversion (m : option string) (self : ResourceEntity)
  : ResourceEntity :=
  {| values := values self; dirty := dirty self; ident := ident self;
     microversion := m |}.

Section Methods.
Context `{BaseOpen}.

Definition create (base_path : option string) : Op ResourceEntity :=
  Resource.create schema false base_path.

Definition commit (base_path : option string) : Op ResourceEntity :=
  Resource.commit schema false false None.

Definition update (preview : bool) : Op ResourceEntity :=
  self ← get_self;
  request ← Resource._prepare_request schema true false
              (Some ("/stacks/" +:+ py_str (attr "name" self) +:+ "/"));
  session ← get_session;
  let microversion := _get_microversion_for self session "commit" in
  let request_url :=
    if preview
    then urljoin [VStr (Resource.url request); VStr "preview"]
    else Resource.url request in
  response ← send {| verb := PUT; target := request_url;
                     json := Some (Resource.body request);
                     hdrs := Some (Resource.headers request);
                     mv := microversion |};
  modify_self (set_microversion microversion);;
  Resource._translate_response schema response true;;
  get_self.

(** Perform stack actions *)
Definition _action (body : value) : Op value :=
  self ← get_self;
  let url := urljoin [VStr base_path; Resource._get_id self; VStr "actions"] in
  resp ← send {| verb := POST; target := url; json := Some body;
                 hdrs := None; mv := None |};
  response_json resp.

Definition check : Op value :=
  _action (VDict [("check", VStr "")]).

Definition abandon : Op value :=
  self ← get_self;
  let url := urljoin [VStr base_path; attr "name" self;
                      Resource._get_id self; VStr "abandon"] in
  resp ← send {| verb := DELETE; target := url; json := None;
                 hdrs := None; mv := None |};
  response_json resp.

Definition fetch (requires_id : bool) (base_path error_message : option string)
  : Op ResourceEntity :=
  stk ← Resource.fetch schema requires_id base_path error_message;
  if truthy stk && py_in (attr "status" stk) ["DELETE_COMPLETE"; "ADOPT_COMPLETE"]
  then raise (ResourceNotFound ("No stack found for " +:+ py_str (id_value stk)))
  else ret stk.

(** Not overridden: the inherited method. *)
Definition delete : Op ResourceEntity :=
  Resource.delete schema.

End Methods.
End Stack.

Module StackPreview := Stack.

(** ** Concrete collaborators and entities *)

Module Fixtures.

(** A base class that coerces nothing on the way out, refuses every cast
    of a value of the wrong type, commits with PUT and negotiates
    microversion 1.0. *)
Definition base : BaseOpen :=
  {| coerce_out := fun _ v => v;
     cast := fun _ _ => None;
     commit_method := PUT;
     _get_microversion_for := fun _ _ _ => Some "1.0" |}.

(** A session that answers every call with status 200 and the document. *)
Definition serving (doc : value) : Session :=
  {| transport := fun _ _ =>
       Ok {| status_code := 200; document := Some doc; response_headers := [] |};
     sent := [] |}.

(** A stack named [web] with identity [abc] and a locally changed
    description. *)
Definition web : ResourceEntity :=
  {| values := {[ "name" := VStr "web"; "description" := VStr "local text" ]};
     dirty := {[ "description" ]};
     ident := Some "abc";
     microversion := None |}.

(** The same stack before it was given an identity. *)
Definition unbound : ResourceEntity :=
  {| values := values web; dirty := dirty web; ident := None;
     microversion := None |}.

Definition deleted_doc : value :=
  VDict [("stack", VDict [("stack_status", VStr "DELETE_COMPLETE")])].

Definition created_doc : value :=
  VDict [("stack", VDict [("stack_status", VStr "CREATE_COMPLETE")])].

Definition preview_doc : value :=
  VDict [("description", VStr "server text"); ("added", VList [])].

End Fixtures.

(** ** The calls the operations make *)

Definition commit_call `{BaseOpen} (path : string) (self : ResourceEntity) : Call :=
  {| verb := commit_method;
     target := path;
     json := Some (VDict (Resource.emit Stack.schema Body
                            (Resource.dirty_values self)));
     hdrs := Some (Resource.emit Stack.schema Header (Resource.dirty_values self));
     mv := None |}.

Definition create_call (path : string) (body : value) (headers : list (string * value))
  : Call :=
  {| verb := POST; target := path; json := Some body; hdrs := Some headers;
     mv := None |}.

Definition action_call (ident : value) (payload : value) : Call :=
  {| verb := POST;
     target := urljoin [VStr Stack.base_path; ident; VStr "actions"];
     json := Some payload; hdrs := None; mv := None |}.

Definition abandon_call (name ident : value) : Call :=
  {| verb := DELETE;
     target := urljoin [VStr Stack.base_path; name; ident; VStr "abandon"];
     json := None; hdrs := None; mv := None |}.

(** What [resp.json()] gives for the answer of the session to a call. *)
Definition decoded (session : Session) (c : Call) : result value :=
  match transport session (sent session) c with
  | Ok resp =>
      match document resp with
      | Some doc => Ok doc
      | None => Raise (TransportError DecodeFailure)
      end
  | Raise e => Raise e
  end.

Definition logged (session : Session) (c : Call) : Session :=
  {| transport := transport session; sent := sent session ++ [c] |}.

(** The base path of an update: ['/stacks/%(stack_name)s/' % ...]. *)
Definition update_base_path (self : ResourceEntity) : string :=
  "/stacks/" +:+ py_str (attr "name" self) +:+ "/".

(** The request an update prepares, or the error that stops it. *)
Definition update_request `{BaseOpen} (self : ResourceEntity) (session : Session)
  : result Resource._Request :=
  outcome (Resource._prepare_request Stack.schema true false
             (Some (update_base_path self)) self session).

Definition update_call `{BaseOpen} (self : ResourceEntity) (session : Session)
           (url : string) (request : Resource._Request) : Call :=
  {| verb := PUT; target := url;
     json := Some (Resource.body request);
     hdrs := Some (Resource.headers request);
     mv := _get_microversion_for self session "commit" |}.

(** The call of a preview on an entity with identity [i] whose base path
    filled to [uri]. *)
Definition preview_call `{BaseOpen} (self : ResourceEntity) (session : Session)
           (uri i : string) : Call :=
  {| verb := PUT;
     target := urljoin [VStr (urljoin [VStr uri; VStr i]); VStr "preview"];
     json := Some (VDict (Resource.emit Stack.schema Body (Resource.dirty_values self)));
     hdrs := Some (Resource.emit Stack.schema Header (Resource.dirty_values self));
     mv := _get_microversion_for self session "commit" |}.

(** ** More collaborators and entities *)

Module Cases.

(** A session on which every call fails in the network. *)
Definition failing : Session :=
  {| transport := fun _ _ => Raise (TransportError NetworkFailure); sent := [] |}.

(** A stack with an identity whose name was never set. *)
Definition unnamed : ResourceEntity :=
  {| values := {[ "description" := VStr "local text" ]};
     dirty := {[ "description" ]};
     ident := Some "abc";
     microversion := None |}.

(** A document whose [parameters] are text where a mapping is declared. *)
Definition bad_parameters_doc : value :=
  VDict [("parameters", VStr "oops")].

End Cases.

(** The call of a fetch on a path. *)
Definition fetch_call (path : string) : Call :=
  {| verb := GET; target := path; json := None; hdrs := Some []; mv := None |}.

(** * Properties *)

(** Unfolding of the state-passing combinators. *)
Ltac run :=
  unfold mbind, Op_bind, bind, mret, Op_ret, ret, raise, lift, get_self,
    get_session, modify_self, send, response_json, outcome, entity_after,
    session_after; simpl fst; simpl snd.

Section BaseFacts.
Context `{BaseOpen}.
Variable schema : ResourceSchema.

(** The builder reads the entity and touches neither it nor the session. *)
Lemma build_pure vals requires_id prepend_key base_path self session :
  Resource.build schema vals requires_id prepend_key base_path self session =
  (outcome (Resource.build schema vals requires_id prepend_key base_path self session),
   self, session).
Proof.
  unfold Resource.build. run.
  destruct requires_id; [destruct (ident self)|];
    try destruct (Resource.fill _ _ _); reflexivity.
Qed.

Lemma _prepare_request_pure requires_id prepend_key base_path self session :
  Resource._prepare_request schema requires_id prepend_key base_path self session =
  (outcome (Resource._prepare_request schema requires_id prepend_key base_path self session),
   self, session).
Proof.
  unfold Resource._prepare_request. run.
  rewrite build_pure. reflexivity.
Qed.

(** Without an identity the builder of an identity-bound operation stops
    with [PreconditionError]. *)
Lemma build_unbound vals prepend_key base_path self session :
  ident self = None ->
  Resource.build schema vals true prepend_key base_path self session =
  (Raise PreconditionError, self, session).
Proof. intros Hid. unfold Resource.build. run. rewrite Hid. reflexivity. Qed.

(** With an identity the builder joins it on the filled base path. *)
Lemma build_bound vals prepend_key base_path self session i uri :
  ident self = Some i ->
  Resource.fill (Resource.uri_lookup schema self)
                (default (basePath schema) base_path) None = Ok uri ->
  Resource.build schema vals true prepend_key base_path self session =
  (Ok {| Resource.url := urljoin [VStr uri; VStr i];
         Resource.body := Resource.wire_body (Resource.toWire schema vals prepend_key);
         Resource.headers := Resource.wire_headers (Resource.toWire schema vals prepend_key) |},
   self, session).
Proof.
  intros Hid Hfill. unfold Resource.build. run. rewrite Hid, Hfill. reflexivity.
Qed.

Lemma build_anonymous vals prepend_key base_path self session uri :
  Resource.fill (Resource.uri_lookup schema self)
                (default (basePath schema) base_path) None = Ok uri ->
  Resource.build schema vals false prepend_key base_path self session =
  (Ok {| Resource.url := uri;
         Resource.body := Resource.wire_body (Resource.toWire schema vals prepend_key);
         Resource.headers := Resource.wire_headers (Resource.toWire schema vals prepend_key) |},
   self, session).
Proof.
  intros Hfill. unfold Resource.build. run. rewrite Hfill. reflexivity.
Qed.

(** The envelope rule of [toWire]. *)
Lemma toWire_envelope vals k :
  entityKey schema = Some k ->
  Resource.wire_body (Resource.toWire schema vals true) =
    VDict [(k, VDict (Resource.emit schema Body vals))] /\
  Resource.wire_body (Resource.toWire schema vals false) =
    VDict (Resource.emit schema Body vals).
Proof. intros Hk. unfold Resource.toWire. simpl. rewrite Hk. split; reflexivity. Qed.

End BaseFacts.

(** The calls of an operation that sent exactly one. *)
Lemma calls_one {A} (m : Op A) self session c :
  sent (session_after (m self session)) = sent session ++ [c] ->
  calls m self session = [c].
Proof. intros Hs. unfold calls. rewrite Hs. apply drop_app_length. Qed.

(** Every capability is allowed on a stack. *)
Lemma Stack_require `{BaseOpen} c self session :
  Resource.require Stack.schema c self session = (Ok tt, self, session).
Proof. destruct c; reflexivity. Qed.

(** ** Fetch *)

(** The base fetch of an entity without identity stops before the session
    is reached. *)
Lemma Resource_fetch_unbound `{BaseOpen} base_path error_message self session :
  ident self = None ->
  Resource.fetch Stack.schema true base_path error_message self session =
  (Raise PreconditionError, self, session).
Proof.
  intros Hid. unfold Resource.fetch. run.
  rewrite Stack_require, (build_unbound _ _ _ _ _ _ Hid). reflexivity.
Qed.

(** C1: when the base fetch succeeds and hands back the translated entity,
    [Stack.fetch] raises the not-found error if the status of that entity
    is [DELETE_COMPLETE] or [ADOPT_COMPLETE], and for every other status it
    returns that entity as it is, with the entity and the session as the
    base fetch left them. *)
Theorem fetch_logically_absent `{BaseOpen}
    requires_id base_path error_message self session stk self' session' :
  Resource.fetch Stack.schema requires_id base_path error_message self session =
    (Ok stk, self', session') ->
  (attr "status" stk = VStr "DELETE_COMPLETE" \/
   attr "status" stk = VStr "ADOPT_COMPLETE" ->
   Stack.fetch requires_id base_path error_message self session =
     (Raise (ResourceNotFound ("No stack found for " +:+ py_str (id_value stk))),
      self', session')) /\
  (attr "status" stk <> VStr "DELETE_COMPLETE" ->
   attr "status" stk <> VStr "ADOPT_COMPLETE" ->
   Stack.fetch requires_id base_path error_message self session =
     (Ok stk, self', session')).
Proof.
  intros Hbase. unfold Stack.fetch. run. rewrite Hbase. unfold truthy.
  split.
  - intros [-> | ->]; reflexivity.
  - intros Hdel Hadopt.
    destruct (attr "status" stk) as [| | |s| |]; try reflexivity.
    simpl. destruct (String.eqb_spec s "DELETE_COMPLETE") as [->|_];
      [contradiction|].
    destruct (String.eqb_spec s "ADOPT_COMPLETE") as [->|_];
      [contradiction|]. reflexivity.
Qed.

(** A fetch answered with status 200 and a deleted stack raises. *)
Lemma fetch_logically_absent_witness :
  outcome (@Stack.fetch Fixtures.base true None None Fixtures.web
             (Fixtures.serving Fixtures.deleted_doc)) =
  Raise (ResourceNotFound "No stack found for abc").
Proof.
  edestruct (@fetch_logically_absent Fixtures.base true None None Fixtures.web
               (Fixtures.serving Fixtures.deleted_doc)) as [Hgone _].
  - vm_compute. reflexivity.
  - rewrite Hgone; [reflexivity | left; vm_compute; reflexivity].
Defined.

(** The same fetch answered with a live stack returns the entity. *)
Example fetch_live :
  outcome (@Stack.fetch Fixtures.base true None None Fixtures.web
             (Fixtures.serving Fixtures.created_doc)) =
  Ok {| values := {[ "name" := VStr "web"; "description" := VStr "local text";
                     "status" := VStr "CREATE_COMPLETE" ]};
        dirty := ∅; ident := Some "abc"; microversion := None |}.
Proof. vm_compute. reflexivity. Qed.

(** ** Missing identity *)

(** C7: on an entity without identity, fetch (with the identity required),
    commit and delete raise [PreconditionError] and leave the entity and
    the session, hence the log of calls, as they were. *)
Theorem unbound_identity_precondition `{BaseOpen}
    base_path error_message self session :
  ident self = None ->
  Stack.fetch true base_path error_message self session =
    (Raise PreconditionError, self, session) /\
  Stack.commit base_path self session = (Raise PreconditionError, self, session) /\
  Stack.delete self session = (Raise PreconditionError, self, session).
Proof.
  intros Hid. repeat split.
  - unfold Stack.fetch. run. rewrite (Resource_fetch_unbound _ _ _ _ Hid).
    reflexivity.
  - unfold Stack.commit, Resource.commit, Resource._prepare_request. run.
    rewrite Stack_require, (build_unbound _ _ _ _ _ _ Hid). reflexivity.
  - unfold Stack.delete, Resource.delete. run.
    rewrite Stack_require, (build_unbound _ _ _ _ _ _ Hid). reflexivity.
Qed.

Lemma unbound_identity_precondition_witness :
  sent (session_after (@Stack.fetch Fixtures.base true None None Fixtures.unbound
                         (Fixtures.serving Fixtures.created_doc))) = [] /\
  outcome (@Stack.delete Fixtures.base Fixtures.unbound
             (Fixtures.serving Fixtures.created_doc)) = Raise PreconditionError.
Proof.
  destruct (@unbound_identity_precondition Fixtures.base None None Fixtures.unbound
              (Fixtures.serving Fixtures.created_doc) eq_refl)
    as (Hfetch & _ & Hdelete).
  rewrite Hfetch, Hdelete. split; reflexivity.
Defined.

(** ** The alias *)

(** C8: [StackPreview] is [Stack]: one schema, and every operation reached
    through the one name is the operation reached through the other. *)
Theorem StackPreview_is_Stack `{BaseOpen} :
  StackPreview.schema = Stack.schema /\
  StackPreview.create = Stack.create /\
  StackPreview.fetch = Stack.fetch /\
  StackPreview.commit = Stack.commit /\
  StackPreview.update = Stack.update /\
  StackPreview.delete = Stack.delete /\
  StackPreview._action = Stack._action /\
  StackPreview.check = Stack.check /\
  StackPreview.abandon = Stack.abandon.
Proof. repeat split; reflexivity. Qed.

(** ** Calls that reach the session *)

(** Translating a response is local to the entity. *)
Lemma _translate_response_session `{BaseOpen} schema response has_body self session :
  session_after (Resource._translate_response schema response has_body self session) =
  session.
Proof.
  unfold Resource._translate_response.
  destruct (if has_body then document response else None); run;
    [destruct (Resource.fromWire schema v)|]; reflexivity.
Qed.

Lemma translate_then_self_session `{BaseOpen} schema has_body r e s :
  session_after
    ((Resource._translate_response schema r has_body ≫= fun _ => get_self) e s) = s.
Proof.
  pose proof (_translate_response_session schema r has_body e s) as Ht.
  revert Ht. run.
  destruct (Resource._translate_response schema r has_body e s) as [[[]] ?];
    simpl; auto.
Qed.

(** The path of the stack collection has no placeholder to fill. *)
Lemma fill_stacks bound : Resource.fill bound Stack.base_path None = Ok "/stacks".
Proof. reflexivity. Qed.

(** ** Commit *)

(** Whatever base path the caller gives, a commit goes to the path of the
    schema. *)
Lemma commit_calls `{BaseOpen} base_path self session i :
  ident self = Some i ->
  calls (Stack.commit base_path) self session =
  [commit_call (urljoin [VStr "/stacks"; VStr i]) self].
Proof.
  intros Hid. apply calls_one.
  unfold Stack.commit, Resource.commit, Resource._prepare_request. run.
  rewrite (build_bound Stack.schema _ false None self session i "/stacks" Hid
             (fill_stacks _)).
  simpl.
  match goal with
  | |- context [transport session (sent session) ?c] =>
      destruct (transport session (sent session) c) as [r|e]
  end; reflexivity.
Qed.

(** C3 (the code departs from the claim): a commit of the stack [web] with
    the alternate base path [/alt] is sent to [/stacks/abc], the path of
    the schema, and a commit with any base path is the commit with none. *)
Theorem commit_drops_base_path `{BaseOpen} session :
  calls (Stack.commit (Some "/alt")) Fixtures.web session =
    [{| verb := commit_method; target := "/stacks/abc";
        json := Some (VDict [("description", VStr "local text")]);
        hdrs := Some []; mv := None |}] /\
  (forall base_path, Stack.commit base_path = Stack.commit None).
Proof.
  split; [|reflexivity].
  rewrite (commit_calls (Some "/alt") Fixtures.web session "abc" eq_refl).
  reflexivity.
Qed.

(** ** Create *)

(** The one call of a base create. *)
Lemma Resource_create_calls `{BaseOpen} prepend_key base_path self session uri :
  Resource.fill (Resource.uri_lookup Stack.schema self)
                (default Stack.base_path base_path) None = Ok uri ->
  calls (Resource.create Stack.schema prepend_key base_path) self session =
  [create_call uri
     (Resource.wire_body (Resource.toWire Stack.schema (values self) prepend_key))
     (Resource.emit Stack.schema Header (values self))].
Proof.
  intros Hfill. apply calls_one. unfold Resource.create. run.
  rewrite (build_anonymous Stack.schema _ prepend_key base_path self session uri Hfill).
  simpl.
  match goal with
  | |- context [transport session (sent session) ?c] =>
      destruct (transport session (sent session) c) as [r|e]
  end; [|reflexivity].
  match goal with
  | |- context [Resource._translate_response ?a ?b ?c ?d ?e] =>
      pose proof (_translate_response_session a b c d e) as Ht;
      destruct (Resource._translate_response a b c d e) as [[[]] ?]
  end; unfold session_after in Ht; simpl in Ht; subst; reflexivity.
Qed.

(** C4: the schema of a stack has the entity key [stack]; all the same the
    body that [Stack.create] sends is the bare body map of the entity's
    attributes, whereas the create of the base class with the envelope
    left on sends that map wrapped under [stack]. *)
Theorem create_suppresses_envelope `{BaseOpen} base_path self session uri :
  Resource.fill (Resource.uri_lookup Stack.schema self)
                (default Stack.base_path base_path) None = Ok uri ->
  entityKey Stack.schema = Some "stack" /\
  calls (Stack.create base_path) self session =
    [create_call uri (VDict (Resource.emit Stack.schema Body (values self)))
       (Resource.emit Stack.schema Header (values self))] /\
  calls (Resource.create Stack.schema true base_path) self session =
    [create_call uri
       (VDict [("stack", VDict (Resource.emit Stack.schema Body (values self)))])
       (Resource.emit Stack.schema Header (values self))].
Proof.
  intros Hfill. split; [reflexivity|]. split.
  - unfold Stack.create. rewrite (Resource_create_calls _ _ _ _ _ Hfill).
    reflexivity.
  - rewrite (Resource_create_calls _ _ _ _ _ Hfill). reflexivity.
Qed.

Lemma create_suppresses_envelope_witness :
  calls (@Stack.create Fixtures.base None) Fixtures.web
        (Fixtures.serving Fixtures.created_doc) =
    [create_call "/stacks"
       (VDict [("description", VStr "local text"); ("stack_name", VStr "web")]) []] /\
  calls (@Resource.create Fixtures.base Stack.schema true None) Fixtures.web
        (Fixtures.serving Fixtures.created_doc) =
    [create_call "/stacks"
       (VDict [("stack", VDict [("description", VStr "local text");
                                ("stack_name", VStr "web")])]) []].
Proof.
  destruct (@create_suppresses_envelope Fixtures.base None Fixtures.web
              (Fixtures.serving Fixtures.created_doc) "/stacks" eq_refl)
    as (_ & Hbare & Hwrapped).
  rewrite Hbare, Hwrapped. split; vm_compute; reflexivity.
Defined.

(** ** Actions *)

(** An action is one POST of the payload; the entity is not touched and
    the decoded answer is handed back as it came. *)
Lemma _action_run payload self session :
  Stack._action payload self session =
  (decoded session (action_call (id_value self) payload), self,
   logged session (action_call (id_value self) payload)).
Proof.
  unfold Stack._action, decoded, action_call, Resource._get_id. run.
  destruct (transport session _ _) as [resp|e]; [|reflexivity].
  destruct (document resp); reflexivity.
Qed.

Lemma abandon_run self session :
  Stack.abandon self session =
  (decoded session (abandon_call (attr "name" self) (id_value self)), self,
   logged session (abandon_call (attr "name" self) (id_value self))).
Proof.
  unfold Stack.abandon, decoded, abandon_call, Resource._get_id. run.
  destruct (transport session _ _) as [resp|e]; [|reflexivity].
  destruct (document resp); reflexivity.
Qed.

(** C5: on an entity with identity [i], an action with a payload is one
    POST to [/stacks/i/actions], the base path, the identity and [actions]
    joined, whose body is the payload as given; it returns the decoded
    response document as it came and leaves the entity as it was. *)
Theorem action_posts_verbatim payload self session i :
  ident self = Some i ->
  calls (Stack._action payload) self session = [action_call (VStr i) payload] /\
  target (action_call (VStr i) payload) = "/stacks/" +:+ i +:+ "/actions" /\
  verb (action_call (VStr i) payload) = POST /\
  json (action_call (VStr i) payload) = Some payload /\
  outcome (Stack._action payload self session) =
    decoded session (action_call (VStr i) payload) /\
  entity_after (Stack._action payload self session) = self.
Proof.
  intros Hid. rewrite _action_run. unfold id_value. rewrite Hid. simpl.
  repeat split. apply calls_one. rewrite _action_run. unfold id_value.
  rewrite Hid. reflexivity.
Qed.

Lemma action_posts_verbatim_witness :
  calls (Stack._action (VDict [("suspend", VNone)])) Fixtures.web
        (Fixtures.serving Fixtures.preview_doc) =
    [{| verb := POST; target := "/stacks/abc/actions";
        json := Some (VDict [("suspend", VNone)]); hdrs := None; mv := None |}] /\
  outcome (Stack._action (VDict [("suspend", VNone)]) Fixtures.web
             (Fixtures.serving Fixtures.preview_doc)) = Ok Fixtures.preview_doc.
Proof.
  destruct (action_posts_verbatim (VDict [("suspend", VNone)]) Fixtures.web
              (Fixtures.serving Fixtures.preview_doc) "abc" eq_refl)
    as (Hcalls & _ & _ & _ & Hout & _).
  rewrite Hcalls, Hout. split; reflexivity.
Defined.

Lemma string_length_append (a b : string) :
  String.length (a +:+ b) = String.length a + String.length b.
Proof. induction a as [|c a IH]; simpl; [reflexivity | rewrite IH; reflexivity]. Qed.

Lemma string_append_assoc (a b c : string) :
  (a +:+ b) +:+ c = a +:+ b +:+ c.
Proof.
  induction a as [|x a IH]; [reflexivity|].
  change (String x ((a +:+ b) +:+ c) = String x (a +:+ b +:+ c)).
  rewrite IH. reflexivity.
Qed.

(** C6: on an entity named [n] with identity [i], abandon is one DELETE to
    [/stacks/n/i/abandon], the name segment before the identity segment,
    and returns the decoded response document as it came. *)
Theorem abandon_path_shape self session n i :
  values self !! "name" = Some (VStr n) ->
  ident self = Some i ->
  calls Stack.abandon self session = [abandon_call (VStr n) (VStr i)] /\
  target (abandon_call (VStr n) (VStr i)) =
    "/stacks/" +:+ n +:+ "/" +:+ i +:+ "/abandon" /\
  verb (abandon_call (VStr n) (VStr i)) = DELETE /\
  target (abandon_call (VStr n) (VStr i)) <> target (action_call (VStr i) VNone) /\
  outcome (Stack.abandon self session) =
    decoded session (abandon_call (VStr n) (VStr i)) /\
  entity_after (Stack.abandon self session) = self.
Proof.
  intros Hname Hid.
  assert (Hrun := abandon_run self session).
  unfold attr, id_value in Hrun. rewrite Hname, Hid in Hrun. simpl in Hrun.
  repeat split.
  - apply calls_one. rewrite Hrun. reflexivity.
  - unfold abandon_call, action_call, urljoin. simpl.
    intros Heq. injection Heq as Heq.
    apply (f_equal String.length) in Heq.
    repeat (rewrite !string_length_append in Heq; simpl in Heq). lia.
  - rewrite Hrun. reflexivity.
  - rewrite Hrun. reflexivity.
Qed.

Lemma abandon_path_shape_witness :
  calls Stack.abandon Fixtures.web (Fixtures.serving Fixtures.preview_doc) =
    [{| verb := DELETE; target := "/stacks/web/abc/abandon"; json := None;
        hdrs := None; mv := None |}].
Proof.
  destruct (abandon_path_shape Fixtures.web (Fixtures.serving Fixtures.preview_doc)
              "web" "abc" eq_refl eq_refl) as (Hcalls & _).
  rewrite Hcalls. reflexivity.
Defined.

(** C9: whatever the entity and the session, check is one POST to the
    action path of the entity whose body is the fixed document
    [{'check': ''}]; two runs on different entities and sessions send the
    same body. *)
Theorem check_payload_constant self session self' session' :
  calls Stack.check self session =
    [action_call (id_value self) (VDict [("check", VStr "")])] /\
  json <$> calls Stack.check self session =
  json <$> calls Stack.check self' session'.
Proof.
  assert (Hc : forall e s, calls Stack.check e s =
                 [action_call (id_value e) (VDict [("check", VStr "")])]).
  { intros e s. apply calls_one. unfold Stack.check. rewrite _action_run.
    reflexivity. }
  rewrite !Hc. split; reflexivity.
Qed.

(** ** Update and its preview *)

(** An update is its prepared request, one PUT, and the translation of the
    answer into the entity, which is what it returns. *)
Lemma update_run `{BaseOpen} preview self session request :
  update_request self session = Ok request ->
  Stack.update preview self session =
  let c := update_call self session
             (if preview
              then urljoin [VStr (Resource.url request); VStr "preview"]
              else Resource.url request) request in
  match transport session (sent session) c with
  | Ok response =>
      (Resource._translate_response Stack.schema response true ≫= fun _ => get_self)
        (Stack.set_microversion (_get_microversion_for self session "commit") self)
        (logged session c)
  | Raise e => (Raise e, self, logged session c)
  end.
Proof.
  unfold update_request. intros Hreq.
  unfold Stack.update, update_base_path in *.
  unfold mbind at 1, Op_bind at 1, bind at 1, get_self at 1.
  unfold mbind at 1, Op_bind at 1, bind at 1.
  rewrite _prepare_request_pure, Hreq.
  unfold mbind at 1, Op_bind at 1, bind at 1, get_session at 1.
  unfold mbind at 1, Op_bind at 1, bind at 1, send at 1.
  cbv zeta. unfold update_call, logged.
  destruct (transport session (sent session) _) as [response|e]; [|reflexivity].
  unfold mbind at 1, Op_bind at 1, bind at 1, modify_self at 1.
  reflexivity.
Qed.

Lemma update_stopped `{BaseOpen} preview self session e :
  update_request self session = Raise e ->
  Stack.update preview self session = (Raise e, self, session).
Proof.
  unfold update_request. intros Hreq.
  unfold Stack.update, update_base_path in *.
  unfold mbind at 1, Op_bind at 1, bind at 1, get_self at 1.
  unfold mbind at 1, Op_bind at 1, bind at 1.
  rewrite _prepare_request_pure, Hreq. reflexivity.
Qed.

Lemma update_calls `{BaseOpen} preview self session request :
  update_request self session = Ok request ->
  calls (Stack.update preview) self session =
  [update_call self session
     (if preview
      then urljoin [VStr (Resource.url request); VStr "preview"]
      else Resource.url request) request].
Proof.
  intros Hreq. apply calls_one. rewrite (update_run _ _ _ _ Hreq). cbv zeta.
  destruct (transport session (sent session) _) as [response|e]; [|reflexivity].
  rewrite translate_then_self_session. reflexivity.
Qed.

(** C10: for one entity and one session, the update and its preview either
    both stop on the same error before anything is sent, or each sends one
    PUT, with the same body, headers and microversion, the preview to the
    URL of the plain update with [preview] joined on. *)
Theorem preview_changes_url_only `{BaseOpen} self session :
  match update_request self session with
  | Ok request =>
      calls (Stack.update false) self session =
        [update_call self session (Resource.url request) request] /\
      calls (Stack.update true) self session =
        [update_call self session
           (urljoin [VStr (Resource.url request); VStr "preview"]) request]
  | Raise e =>
      Stack.update false self session = (Raise e, self, session) /\
      Stack.update true self session = (Raise e, self, session)
  end.
Proof.
  destruct (update_request self session) as [request|e] eqn:Hreq.
  - split; rewrite (update_calls _ _ _ _ Hreq); reflexivity.
  - split; apply update_stopped; assumption.
Qed.

(** The two runs on the stack [web]. *)
Example update_two_runs_web :
  calls (@Stack.update Fixtures.base false) Fixtures.web
        (Fixtures.serving Fixtures.preview_doc) =
    [{| verb := PUT; target := "/stacks/web//abc";
        json := Some (VDict [("description", VStr "local text")]);
        hdrs := Some []; mv := Some "1.0" |}] /\
  calls (@Stack.update Fixtures.base true) Fixtures.web
        (Fixtures.serving Fixtures.preview_doc) =
    [{| verb := PUT; target := "/stacks/web//abc/preview";
        json := Some (VDict [("description", VStr "local text")]);
        hdrs := Some []; mv := Some "1.0" |}].
Proof. split; vm_compute; reflexivity. Qed.

Lemma update_request_bound `{BaseOpen} self session uri i :
  ident self = Some i ->
  Resource.fill (Resource.uri_lookup Stack.schema self) (update_base_path self) None =
    Ok uri ->
  update_request self session =
  Ok {| Resource.url := urljoin [VStr uri; VStr i];
        Resource.body :=
          VDict (Resource.emit Stack.schema Body (Resource.dirty_values self));
        Resource.headers :=
          Resource.emit Stack.schema Header (Resource.dirty_values self) |}.
Proof.
  intros Hid Hfill. unfold update_request, Resource._prepare_request.
  unfold mbind, Op_bind, bind, get_self.
  rewrite (build_bound Stack.schema _ false (Some (update_base_path self))
             self session i uri Hid Hfill).
  reflexivity.
Qed.

(** C2 as amended: on an entity with identity [i], an update with the
    preview flag sends one PUT to the prepared URL with [preview] joined on
    after the identity segment; when the session answers with a document
    that translates, the microversion is recorded, the translated
    attributes are stored over the values of the entity, the dirty set is
    cleared, and the entity itself is what is returned. *)
Theorem update_preview_translates `{BaseOpen} self session uri i response doc attrs :
  ident self = Some i ->
  Resource.fill (Resource.uri_lookup Stack.schema self) (update_base_path self) None =
    Ok uri ->
  transport session (sent session) (preview_call self session uri i) = Ok response ->
  document response = Some doc ->
  Resource.fromWire Stack.schema doc = Ok attrs ->
  target (preview_call self session uri i) = uri +:+ "/" +:+ i +:+ "/preview" /\
  calls (Stack.update true) self session = [preview_call self session uri i] /\
  outcome (Stack.update true self session) =
    Ok (entity_after (Stack.update true self session)) /\
  values (entity_after (Stack.update true self session)) = attrs ∪ values self /\
  dirty (entity_after (Stack.update true self session)) = ∅ /\
  microversion (entity_after (Stack.update true self session)) =
    _get_microversion_for self session "commit".
Proof.
  intros Hid Hfill Hsend Hdoc Hattrs.
  pose proof (update_request_bound self session uri i Hid Hfill) as Hreq.
  split.
  { unfold preview_call, urljoin. simpl.
    rewrite !string_append_assoc. reflexivity. }
  split.
  { rewrite (update_calls true _ _ _ Hreq). reflexivity. }
  rewrite (update_run true _ _ _ Hreq). cbv zeta.
  change (update_call self session _ _) with (preview_call self session uri i).
  rewrite Hsend. unfold Resource._translate_response. rewrite Hdoc.
  run. rewrite Hattrs. repeat split.
Qed.

Lemma update_preview_translates_witness :
  outcome (@Stack.update Fixtures.base true Fixtures.web
             (Fixtures.serving Fixtures.preview_doc)) =
  Ok {| values := {[ "name" := VStr "web"; "description" := VStr "server text";
                     "added" := VList [] ]};
        dirty := ∅; ident := Some "abc"; microversion := Some "1.0" |}.
Proof.
  destruct (@update_preview_translates Fixtures.base Fixtures.web
              (Fixtures.serving Fixtures.preview_doc) "/stacks/web/" "abc"
              {| status_code := 200; document := Some Fixtures.preview_doc;
                 response_headers := [] |}
              Fixtures.preview_doc
              {[ "description" := VStr "server text"; "added" := VList [] ]}
              eq_refl eq_refl eq_refl eq_refl eq_refl)
    as (_ & _ & Hout & _).
  rewrite Hout. vm_compute. reflexivity.
Defined.

(** C2 as stated fails: the preview of the stack [web], answered with a
    document, does not leave the dirty set and the stored values as they
    were. *)
Lemma update_preview_mutates :
  ~ (dirty (entity_after (@Stack.update Fixtures.base true Fixtures.web
                            (Fixtures.serving Fixtures.preview_doc))) =
       dirty Fixtures.web /\
     values (entity_after (@Stack.update Fixtures.base true Fixtures.web
                             (Fixtures.serving Fixtures.preview_doc))) =
       values Fixtures.web).
Proof.
  intros [_ Hvalues].
  apply (f_equal (fun m => m !! "description")) in Hvalues.
  vm_compute in Hvalues. discriminate Hvalues.
Qed.

(** What the preview of [web] leaves behind and returns. *)
Example update_preview_web :
  values (entity_after (@Stack.update Fixtures.base true Fixtures.web
                          (Fixtures.serving Fixtures.preview_doc)))
    !! "description" = Some (VStr "server text") /\
  values Fixtures.web !! "description" = Some (VStr "local text") /\
  dirty (entity_after (@Stack.update Fixtures.base true Fixtures.web
                         (Fixtures.serving Fixtures.preview_doc))) = ∅ /\
  dirty Fixtures.web = {[ "description" ]} /\
  outcome (@Stack.update Fixtures.base true Fixtures.web
             (Fixtures.serving Fixtures.preview_doc)) =
    Ok (entity_after (@Stack.update Fixtures.base true Fixtures.web
                        (Fixtures.serving Fixtures.preview_doc))).
Proof. repeat split; vm_compute; reflexivity. Qed.

(** * Further properties of the operations *)

(** ** Fetch *)

(** X1: the check that [Stack.fetch] makes after the base fetch is local:
    the entity and the session are left exactly as the base fetch left
    them, also when the not-found error is raised, and an error of the base
    fetch is passed on as it is. *)
Theorem fetch_effects_of_base `{BaseOpen}
    requires_id base_path error_message self session :
  entity_after (Stack.fetch requires_id base_path error_message self session) =
    entity_after (Resource.fetch Stack.schema requires_id base_path error_message
                    self session) /\
  session_after (Stack.fetch requires_id base_path error_message self session) =
    session_after (Resource.fetch Stack.schema requires_id base_path error_message
                     self session) /\
  (forall e,
     outcome (Resource.fetch Stack.schema requires_id base_path error_message
                self session) = Raise e ->
     outcome (Stack.fetch requires_id base_path error_message self session) =
       Raise e).
Proof.
  unfold Stack.fetch. run.
  destruct (Resource.fetch Stack.schema requires_id base_path error_message
              self session) as [[[stk|e] self'] session']; simpl.
  - match goal with
    | |- context [if ?b then _ else _] => destruct b
    end; simpl; repeat split; intros e He; discriminate He.
  - repeat split. intros e' He. exact He.
Qed.

(** X2: a fetch that does not require the identity is sent to the path of
    the collection, whether the entity has an identity or not. *)
Theorem fetch_without_identity `{BaseOpen} error_message self session :
  calls (Stack.fetch false None error_message) self session = [fetch_call "/stacks"].
Proof.
  apply calls_one. unfold Stack.fetch, Resource.fetch. run.
  replace (Resource.emit Stack.schema Header ∅) with (@nil (string * value))
    by (vm_compute; reflexivity).
  fold (fetch_call "/stacks").
  destruct (transport session (sent session) (fetch_call "/stacks")) as [r|e];
    [|reflexivity].
  match goal with
  | |- context [Resource._translate_response ?a ?b ?c ?d ?e] =>
      pose proof (_translate_response_session a b c d e) as Ht;
      destruct (Resource._translate_response a b c d e) as [[[]] ?]
  end; unfold session_after in Ht; simpl in Ht; subst; simpl;
    try match goal with
        | |- context [if ?b then _ else _] => destruct b
        end; reflexivity.
Qed.

(** ** Update *)

(** X3: an update, plain or preview, of an entity without identity raises
    [PreconditionError] before anything is sent, and records no
    microversion. *)
Theorem update_unbound `{BaseOpen} preview self session :
  ident self = None ->
  Stack.update preview self session = (Raise PreconditionError, self, session).
Proof.
  intros Hid. apply update_stopped.
  unfold update_request, Resource._prepare_request. run.
  rewrite (build_unbound _ _ _ _ _ _ Hid). reflexivity.
Qed.

Lemma update_unbound_witness :
  @Stack.update Fixtures.base true Fixtures.unbound
     (Fixtures.serving Fixtures.preview_doc) =
  (Raise PreconditionError, Fixtures.unbound, Fixtures.serving Fixtures.preview_doc).
Proof.
  exact (@update_unbound Fixtures.base true Fixtures.unbound
           (Fixtures.serving Fixtures.preview_doc) eq_refl).
Defined.

(** X4: an update of a stack whose name is not set does not fail on the
    name: it is formatted as the text [None], and the request is prepared
    on the base path [/stacks/None/] with the identity joined on. *)
Theorem update_unnamed `{BaseOpen} preview self session i :
  values self !! "name" = None ->
  ident self = Some i ->
  update_base_path self = "/stacks/None/" /\
  calls (Stack.update preview) self session =
    [{| verb := PUT;
        target :=
          (if preview
           then urljoin [VStr (urljoin [VStr "/stacks/None/"; VStr i]); VStr "preview"]
           else urljoin [VStr "/stacks/None/"; VStr i]);
        json := Some (VDict (Resource.emit Stack.schema Body
                               (Resource.dirty_values self)));
        hdrs := Some (Resource.emit Stack.schema Header (Resource.dirty_values self));
        mv := _get_microversion_for self session "commit" |}].
Proof.
  intros Hname Hid.
  assert (Hpath : update_base_path self = "/stacks/None/").
  { unfold update_base_path, attr. rewrite Hname. reflexivity. }
  split; [exact Hpath|].
  assert (Hfill : Resource.fill (Resource.uri_lookup Stack.schema self)
                    (update_base_path self) None = Ok "/stacks/None/").
  { rewrite Hpath. reflexivity. }
  rewrite (update_calls preview _ _ _
             (update_request_bound self session _ i Hid Hfill)).
  destruct preview; reflexivity.
Qed.

Lemma update_unnamed_witness :
  calls (@Stack.update Fixtures.base false) Cases.unnamed
        (Fixtures.serving Fixtures.preview_doc) =
  [{| verb := PUT; target := urljoin [VStr "/stacks/None/"; VStr "abc"];
      json := Some (VDict [("description", VStr "local text")]);
      hdrs := Some []; mv := Some "1.0" |}].
Proof.
  destruct (@update_unnamed Fixtures.base false Cases.unnamed
              (Fixtures.serving Fixtures.preview_doc) "abc" eq_refl eq_refl)
    as [_ Hcalls].
  rewrite Hcalls. vm_compute. reflexivity.
Defined.

(** X5: when the session fails the PUT of an update, the error is passed
    on and the entity is left as it was: the microversion is recorded only
    after the call has succeeded. *)
Theorem update_transport_failure `{BaseOpen} (preview : bool) self session request e :
  update_request self session = Ok request ->
  transport session (sent session)
    (update_call self session
       (if preview
        then urljoin [VStr (Resource.url request); VStr "preview"]
        else Resource.url request) request) = Raise e ->
  outcome (Stack.update preview self session) = Raise e /\
  entity_after (Stack.update preview self session) = self /\
  length (calls (Stack.update preview) self session) = 1.
Proof.
  intros Hreq Hsend. rewrite (update_calls _ _ _ _ Hreq).
  rewrite (update_run _ _ _ _ Hreq). cbv zeta. rewrite Hsend.
  repeat split.
Qed.

Lemma update_transport_failure_witness :
  outcome (@Stack.update Fixtures.base false Fixtures.web Cases.failing) =
    Raise (TransportError NetworkFailure) /\
  entity_after (@Stack.update Fixtures.base false Fixtures.web Cases.failing) =
    Fixtures.web.
Proof.
  destruct (@update_transport_failure Fixtures.base false Fixtures.web Cases.failing
              {| Resource.url := "/stacks/web//abc";
                 Resource.body := VDict [("description", VStr "local text")];
                 Resource.headers := [] |}
              (TransportError NetworkFailure) eq_refl eq_refl)
    as (Hout & Hent & _).
  rewrite Hout, Hent. split; reflexivity.
Defined.

(** X6: when the answer to an update does not translate, the error is
    raised with the microversion already recorded on the entity, while the
    values and the dirty set are as they were. *)
Theorem update_translation_failure `{BaseOpen}
    (preview : bool) self session request response doc e :
  update_request self session = Ok request ->
  transport session (sent session)
    (update_call self session
       (if preview
        then urljoin [VStr (Resource.url request); VStr "preview"]
        else Resource.url request) request) = Ok response ->
  document response = Some doc ->
  Resource.fromWire Stack.schema doc = Raise e ->
  outcome (Stack.update preview self session) = Raise e /\
  entity_after (Stack.update preview self session) =
    Stack.set_microversion (_get_microversion_for self session "commit") self.
Proof.
  intros Hreq Hsend Hdoc Hwire.
  rewrite (update_run _ _ _ _ Hreq). cbv zeta. rewrite Hsend.
  unfold Resource._translate_response. rewrite Hdoc. run. rewrite Hwire.
  split; reflexivity.
Qed.

Lemma update_translation_failure_witness :
  outcome (@Stack.update Fixtures.base true Fixtures.web
             (Fixtures.serving Cases.bad_parameters_doc)) =
    Raise (TranslationError "parameters" (VStr "oops")) /\
  microversion (entity_after (@Stack.update Fixtures.base true Fixtures.web
                                (Fixtures.serving Cases.bad_parameters_doc))) =
    Some "1.0".
Proof.
  destruct (@update_translation_failure Fixtures.base true Fixtures.web
              (Fixtures.serving Cases.bad_parameters_doc)
              {| Resource.url := "/stacks/web//abc";
                 Resource.body := VDict [("description", VStr "local text")];
                 Resource.headers := [] |}
              {| status_code := 200; document := Some Cases.bad_parameters_doc;
                 response_headers := [] |}
              Cases.bad_parameters_doc
              (TranslationError "parameters" (VStr "oops"))
              eq_refl eq_refl eq_refl eq_refl)
    as (Hout & Hent).
  rewrite Hout, Hent. split; reflexivity.
Defined.

(** Translating a response does not look at the session. *)
Lemma translate_then_self_local `{BaseOpen} schema has_body r e s1 s2 :
  outcome ((Resource._translate_response schema r has_body ≫= fun _ => get_self) e s1) =
  outcome ((Resource._translate_response schema r has_body ≫= fun _ => get_self) e s2) /\
  entity_after
    ((Resource._translate_response schema r has_body ≫= fun _ => get_self) e s1) =
  entity_after
    ((Resource._translate_response schema r has_body ≫= fun _ => get_self) e s2).
Proof.
  unfold Resource._translate_response.
  destruct (if has_body then document r else None) as [doc|]; run;
    [destruct (Resource.fromWire schema doc)|]; split; reflexivity.
Qed.

(** X7: the preview flag has no part in how the answer is handled: when
    the session gives the update and its preview the same answer, the two
    runs return the same and leave the same entity. *)
Theorem update_answer_handled_alike `{BaseOpen} self session request :
  update_request self session = Ok request ->
  transport session (sent session)
    (update_call self session (Resource.url request) request) =
  transport session (sent session)
    (update_call self session
       (urljoin [VStr (Resource.url request); VStr "preview"]) request) ->
  outcome (Stack.update false self session) =
    outcome (Stack.update true self session) /\
  entity_after (Stack.update false self session) =
    entity_after (Stack.update true self session).
Proof.
  intros Hreq Hsame.
  rewrite !(update_run _ _ _ _ Hreq). cbv beta iota zeta. rewrite Hsame.
  clear Hsame.
  destruct (transport session (sent session) _) as [response|e].
  - apply translate_then_self_local.
  - split; reflexivity.
Qed.

Lemma update_answer_handled_alike_witness :
  outcome (@Stack.update Fixtures.base false Fixtures.web
             (Fixtures.serving Fixtures.preview_doc)) =
  outcome (@Stack.update Fixtures.base true Fixtures.web
             (Fixtures.serving Fixtures.preview_doc)).
Proof.
  destruct (@update_answer_handled_alike Fixtures.base Fixtures.web
              (Fixtures.serving Fixtures.preview_doc)
              {| Resource.url := "/stacks/web//abc";
                 Resource.body := VDict [("description", VStr "local text")];
                 Resource.headers := [] |}
              eq_refl eq_refl) as [Hout _].
  exact Hout.
Defined.

(** ** Commit *)



(** ** Actions *)

(** X9: the actions do not check the identity: on an entity without one
    the action and the abandon are still sent, as one call each with the
    unbound identity as a path segment, and the entity is not touched. *)
Theorem actions_skip_identity_check payload self session :
  ident self = None ->
  calls (Stack._action payload) self session = [action_call VNone payload] /\
  calls Stack.abandon self session = [abandon_call (attr "name" self) VNone] /\
  entity_after (Stack._action payload self session) = self /\
  entity_after (Stack.abandon self session) = self.
Proof.
  intros Hid.
  assert (Ha := _action_run payload self session).
  assert (Hb := abandon_run self session).
  unfold id_value in Ha, Hb. rewrite Hid in Ha, Hb. simpl in Ha, Hb.
  repeat split.
  - apply calls_one. rewrite Ha. reflexivity.
  - apply calls_one. rewrite Hb. reflexivity.
  - rewrite Ha. reflexivity.
  - rewrite Hb. reflexivity.
Qed.

Lemma actions_skip_identity_check_witness :
  length (calls Stack.check Fixtures.unbound
            (Fixtures.serving Fixtures.preview_doc)) = 1 /\
  entity_after (Stack.abandon Fixtures.unbound
                  (Fixtures.serving Fixtures.preview_doc)) = Fixtures.unbound.
Proof.
  destruct (actions_skip_identity_check (VDict [("check", VStr "")])
              Fixtures.unbound (Fixtures.serving Fixtures.preview_doc) eq_refl)
    as (Hcalls & _ & _ & Hent).
  unfold Stack.check. rewrite Hcalls, Hent. split; reflexivity.
Defined.

(** ** The field table *)

(** The keys that [emit] writes for a location come, in order, from the
    wire names of the fields of that location. *)
Lemma emit_keys_sublist `{BaseOpen} schema l vals :
  sublist (Resource.emit schema l vals).*1
          (wireName <$> (filter (fun f : FieldSpec => loc f = l) (fields schema).*2)).
Proof.
  unfold Resource.emit.
  induction (fields schema) as [|[a f] fs IH]; simpl; [constructor|].
  rewrite filter_cons. simpl.
  destruct (decide (loc f = l)) as [Hl|Hl].
  - destruct (vals !! a); simpl.
    + apply sublist_skip, IH.
    + apply sublist_cons, IH.
  - exact IH.
Qed.

(** X10: no attribute is declared twice in the field table of a stack, and
    although [stack_name] is the wire name of two attributes, the body that
    is built from any attribute values never carries a key twice. *)
Theorem body_keys_unique `{BaseOpen} (vals : gmap string value) :
  NoDup (Stack.properties.*1) /\
  NoDup (Resource.emit Stack.schema Body vals).*1.
Proof.
  split.
  - apply (bool_decide_unpack _). vm_compute. reflexivity.
  - pose proof (emit_keys_sublist Stack.schema Body vals) as Hsub.
    eapply sublist_NoDup in Hsub; [exact Hsub|].
    apply (bool_decide_unpack _). vm_compute. reflexivity.
Qed.
